(** * Free-collateral notification plugin (src/notional/free-collateral.js)

    A shallow embedding of the [FreeCollateral] class and of the small part of
    ECMAScript it relies on, followed by the properties of its four hooks.

    - JavaScript numbers are IEEE 754 binary64 values ([spec_float] with
      precision 53 and maximal exponent 1024).
    - The body of an [async] function is a computation that may throw and
      that records the network requests it starts; calling the function
      yields a promise, and [await] turns a promise back into a completion.
      A call that is not awaited runs only until it first suspends.
    - The third-party SDK and the host's built-ins ([Number] on strings,
      [Intl.NumberFormat]) are interfaces: the module is verified against
      every implementation of them. *)

From Stdlib Require Import ZArith String Ascii List Lia.
From Stdlib Require Import Floats.SpecFloat.
From stdpp Require Import base option strings gmap pretty.

Open Scope Z_scope.

(** ** The ECMAScript fragment *)

Module Js.

(** Number values: binary64. *)
Definition number : Type := spec_float.

Definition prec : Z := 53.
Definition emax : Z := 1024.

Definition NaN : number := S754_nan.

(** The Number value of an integer literal such as [1000] or [500]. *)
Definition of_Z (z : Z) : number := binary_normalize prec emax z 0 false.

(** [x - y] on Numbers. *)
Definition minus (x y : number) : number := SFsub prec emax x y.

(** [x / y] on Numbers. *)
Definition divide (x y : number) : number := SFdiv prec emax x y.

(** [x === y] on Numbers: NaN differs from everything, the two zeros agree. *)
Definition strict_eq (x y : number) : bool := SFeqb x y.

(** Primitive values (no Symbol, no BigInt: neither occurs in the module). *)
Inductive prim : Type :=
| Undefined
| Null
| Bool (b : bool)
| Num (n : number)
| Str (s : string).

(** A thrown value: an Error object with its [name] and [message]. *)
Record error : Type := Error { name : string; message : string }.

Definition TypeError (msg : string) : error := Error "TypeError" msg.

(** The state of a settled promise. *)
Inductive promise (A : Type) : Type :=
| Fulfilled (a : A)
| Rejected (e : error).
Arguments Fulfilled {A} a.
Arguments Rejected {A} e.

(** The completion of synchronous code. *)
Inductive completion (A : Type) : Type :=
| Normal (a : A)
| Throw (e : error).
Arguments Normal {A} a.
Arguments Throw {A} e.

(** The host's built-ins the module calls. [StringToNumber] is what
    [Number(s)] computes on a string; [FormatNumeric] is what the [format]
    function of an [Intl.NumberFormat] instance computes on a Number. *)
Record NumberFormat : Type := { locale : string; notation : string }.

Class Runtime : Type := {
  StringToNumber : string -> number;
  FormatNumeric : NumberFormat -> number -> string
}.

Section Conversions.
Context `{Runtime}.

(** ToNumber on primitives. *)
Definition ToNumber (v : prim) : number :=
  match v with
  | Undefined => NaN
  | Null => S754_zero false
  | Bool true => of_Z 1
  | Bool false => S754_zero false
  | Num n => n
  | Str s => StringToNumber s
  end.

(** The [<] operator on primitives: two strings compare by code units,
    anything else compares as Numbers, and a comparison in which NaN takes
    part is false. *)
Definition less_than (x y : prim) : bool :=
  match x, y with
  | Str a, Str b => String.ltb a b
  | _, _ => SFltb (ToNumber x) (ToNumber y)
  end.

(** [Number(s)] applied to a string. *)
Definition Number (s : string) : number := StringToNumber s.

(** Objects that the module calls or looks methods up on. *)
Inductive object : Type :=
| NumberFormatInstance (nf : NumberFormat)
| BoundFormatFunction (nf : NumberFormat).

Definition IsCallable (o : object) : bool :=
  match o with
  | NumberFormatInstance _ => false
  | BoundFormatFunction _ => true
  end.

(** [f(arg)], where [text] is how the callee is written at the call site. *)
Definition Call (text : string) (f : object) (arg : prim) : completion string :=
  match f with
  | BoundFormatFunction nf => Normal (FormatNumeric nf (ToNumber arg))
  | NumberFormatInstance _ => Throw (TypeError (text +:+ " is not a function"))
  end.

(** [o.key]: [None] stands for [undefined]. *)
Definition GetMethod (o : object) (key : string) : option object :=
  match o with
  | NumberFormatInstance nf =>
      if String.eqb key "format" then Some (BoundFormatFunction nf) else None
  | BoundFormatFunction _ => None
  end.

(** [o.key(arg)]. *)
Definition Invoke (text : string) (o : object) (key : string) (arg : prim)
  : completion string :=
  match GetMethod o key with
  | Some f => Call (text +:+ "." +:+ key) f arg
  | None => Throw (TypeError (text +:+ "." +:+ key +:+ " is not a function"))
  end.

End Conversions.

(** Number of places at which [needle] occurs in [text]. *)
Fixpoint occurrences (needle text : string) : nat :=
  ((if String.prefix needle text then 1 else 0)
   + match text with
     | EmptyString => 0
     | String _ rest => occurrences needle rest
     end)%nat.

(** No character of [text] is [c]. *)
Fixpoint free_of (c : ascii) (text : string) : bool :=
  match text with
  | EmptyString => true
  | String c' rest => negb (Ascii.eqb c c') && free_of c rest
  end.

Definition includes (needle text : string) : bool :=
  negb (Nat.eqb (occurrences needle text) 0).

(** The error a promise is rejected with, if it is. *)
Definition rejection {A} (p : promise A) : option error :=
  match p with
  | Fulfilled _ => None
  | Rejected e => Some e
  end.

(** *** Async function bodies

    The body of an [async] function is the sequence of steps it takes: it
    completes, it starts a network request and goes on, or it suspends on a
    promise and goes on with the value the promise is fulfilled with. The
    log of a run holds the requests started by the time the promise of the
    call settles. *)
Section Bodies.
Context {event : Type}.

Inductive Body (A : Type) : Type :=
| Done (c : completion A)
| Issue (ev : event) (next : Body A)
| Await {X : Type} (p : promise X) (next : X -> Body A).
Arguments Done {A} c.
Arguments Issue {A} ev next.
Arguments Await {A X} p next.

(** What a call of an [async] function is: it never throws, it returns a
    promise, which settles as its body completes. *)
Record Async (A : Type) : Type := async { body_of : Body A }.
Arguments async {A} body_of.
Arguments body_of {A} _.

Definition body_ret {A} (a : A) : Body A := Done (Normal a).

Fixpoint body_bind {A B} (f : A -> Body B) (m : Body A) : Body B :=
  match m with
  | Done (Normal a) => f a
  | Done (Throw e) => Done (Throw e)
  | Issue ev next => Issue ev (body_bind f next)
  | Await p next => Await p (fun x => body_bind f (next x))
  end.

(** Synchronous code inside a body. *)
Definition sync {A} (c : completion A) : Body A := Done c.

(** [await p]. *)
Definition settle {A} (p : promise A) : completion A :=
  match p with
  | Fulfilled a => Normal a
  | Rejected e => Throw e
  end.

(** A body run until it completes, every promise it suspends on having
    settled. *)
Fixpoint run {A} (b : Body A) (t : list event) : completion A * list event :=
  match b with
  | Done c => (c, t)
  | Issue ev next => run next (t ++ [ev])
  | Await p next =>
      match p with
      | Fulfilled x => run (next x) t
      | Rejected e => (Throw e, t)
      end
  end.

(** The call of an async function, from the requests made so far to the
    state its promise settles in and the requests made by then. *)
Definition call {A} (f : Async A) (t : list event) : promise A * list event :=
  match run (body_of f) t with
  | (Normal a, t') => (Fulfilled a, t')
  | (Throw e, t') => (Rejected e, t')
  end.

(** The requests a body starts before it first suspends. *)
Fixpoint started {A} (b : Body A) : list event :=
  match b with
  | Done _ => []
  | Issue ev next => ev :: started next
  | Await _ _ => []
  end.

(** How a body completes in the end. *)
Fixpoint eventually {A} (b : Body A) : completion A :=
  match b with
  | Done c => c
  | Issue _ next => eventually next
  | Await p next =>
      match p with
      | Fulfilled x => eventually (next x)
      | Rejected e => Throw e
      end
  end.

Definition promise_of {A} (c : completion A) : promise A :=
  match c with
  | Normal a => Fulfilled a
  | Throw e => Rejected e
  end.

(** [await f(...)] for an async function [f] of the module: the callee runs
    up to its completion, then the caller resumes with its result. *)
Definition await {A} (f : Async A) : Body A :=
  body_bind (fun a => Await (Fulfilled a) (fun a' => Done (Normal a')))
            (body_of f).

(** [f(...)] without [await]: the callee runs until it first suspends, and
    the caller goes on at once with the promise of the call. The promise is
    pending then; it is given by the state it will settle in. What the
    callee does after its first suspension happens once the caller has
    completed, and is not part of the caller's run; nobody handles the
    rejection of that promise. *)
Definition no_await {A} (f : Async A) : Body (promise A) :=
  fold_right Issue
             (Done (Normal (promise_of (eventually (body_of f)))))
             (started (body_of f)).

(** [await request], where [request] is a call into the network that is
    logged as [ev] and settles as [p]. *)
Definition await_io {A} (ev : event) (p : promise A) : Body A :=
  Issue ev (Await p (fun a => Done (Normal a))).

End Bodies.

Arguments Done {event A} c.
Arguments Issue {event A} ev next.
Arguments Await {event A X} p next.
Arguments async {event A} body_of.
Arguments body_of {event A} _.
Coercion call : Async >-> Funclass.

#[global] Instance completion_mret : MRet completion := @Normal.
#[global] Instance completion_mbind : MBind completion :=
  fun A B f c => match c with Normal a => f a | Throw e => Throw e end.
#[global] Instance body_mret {event} : MRet (@Body event) := @body_ret event.
#[global] Instance body_mbind {event} : MBind (@Body event) := @body_bind event.

End Js.

Import Js.

(** ** The SDK the module is an adapter for ([@notional-finance/sdk-v2])

    Only the calls made by the module appear. The two awaited calls go to the
    network; the others are methods of objects already loaded, and any of
    them may throw. *)

Module Notional.

Class Sdk : Type := {
  handle : Type;
  Account : Type;
  TypedBigNumber : Type;
  (** [Notional.load(chainId, provider)] *)
  load : Z -> promise handle;
  (** [sdk.getAccountFromGraph(accountId)] *)
  getAccountFromGraph : handle -> string -> promise Account;
  (** [account.getFreeCollateral()]: the pair
      [(netETHDebtWithBuffer, netETHCollateralWithHaircut)] *)
  getFreeCollateral : Account -> completion (TypedBigNumber * TypedBigNumber);
  (** [a.sub(b)] *)
  sub : TypedBigNumber -> TypedBigNumber -> completion TypedBigNumber;
  (** [a.toUSD()] *)
  toUSD : TypedBigNumber -> completion TypedBigNumber;
  (** [a.toExactString()] *)
  toExactString : TypedBigNumber -> completion string
}.

(** Requests that reach the network. *)
Inductive request : Type :=
| LoadSystem (chainId : Z)
| AccountFromGraph (accountId : string).

End Notional.

(** ** The class [FreeCollateral] *)

Module FreeCollateral.

(** [@typedef FreeCollateralParams] *)
Record FreeCollateralParams : Type := {
  debt : number;
  collateral : number;
  freeCollateral : number
}.

(** The three property names the module reads from a snapshot. *)
Inductive snapshot_key : Type := key_debt | key_collateral | key_freeCollateral.

(** What a variable holds at the places where those properties are read:
    a snapshot, or the promise of one. *)
Inductive reference : Type :=
| RefSnapshot (s : FreeCollateralParams)
| RefPromise (p : promise FreeCollateralParams).

(** Property read. A promise object has no own data property, and
    [Promise.prototype] defines none of the three names, so the read yields
    [undefined] whatever the state of the promise. *)
Definition Get (o : reference) (k : snapshot_key) : prim :=
  match o with
  | RefSnapshot s =>
      match k with
      | key_debt => Num (debt s)
      | key_collateral => Num (collateral s)
      | key_freeCollateral => Num (freeCollateral s)
      end
  | RefPromise _ => Undefined
  end.

(** The argument record of the hooks. The host stores the values of the
    subscription form under the ids of its fields; an absent [subscription]
    key is [None]. *)
Record Args : Type := {
  subscription : option (gmap string prim);
  address : string
}.

(** [args.subscription[key]] *)
Definition field (sub : gmap string prim) (key : string) : prim :=
  default Undefined (sub !! key).

(** One entry of the subscription form. *)
Record FieldDescriptor : Type := {
  fd_type : string;
  fd_id : string;
  fd_label : string;
  fd_default : number;
  fd_description : string
}.

Record Notification : Type := { notification : string }.

(** What [onBlocks] resolves to: [undefined], [[]] or a notification. *)
Inductive blocks_result : Type :=
| NoResult
| EmptyList
| Notify (n : Notification).

Definition displayName : string := "Free Collateral".
Definition description : string :=
  "Get notified when free collateral in your account goes under set threshold.".

(** [const amountFormatter = Intl.NumberFormat('en', { notation: 'compact' })] *)
Definition amountFormat : NumberFormat := {| locale := "en"; notation := "compact" |}.
Definition amountFormatter : object := NumberFormatInstance amountFormat.

Section Hooks.
Context `{Runtime} `{Notional.Sdk}.

Local Abbreviation Async := (@Js.Async Notional.request).

(** [async onInit(args) {}] *)
Definition onInit (args : Args) : Async unit :=
  async (mret tt).

(** The expression [Number(amount.toUSD().toExactString())]. *)
Definition usd_number (amount : Notional.TypedBigNumber) : completion number :=
  usd ← Notional.toUSD amount;
  text ← Notional.toExactString usd;
  mret (Number text).

(** [async getFreeCollateral(accountId)] *)
Definition getFreeCollateral (accountId : string) : Async FreeCollateralParams :=
  async (
    notionalSdk ← await_io (Notional.LoadSystem 1) (Notional.load 1);
    account ← await_io (Notional.AccountFromGraph accountId)
                (Notional.getAccountFromGraph notionalSdk accountId);
    '(netETHDebtWithBuffer, netETHCollateralWithHaircut) ←
      sync (Notional.getFreeCollateral account);
    freeCollateralETH ←
      sync (Notional.sub netETHCollateralWithHaircut netETHDebtWithBuffer);
    debtUSD ← sync (usd_number netETHDebtWithBuffer);
    collateralUSD ← sync (usd_number netETHCollateralWithHaircut);
    freeCollateralUSD ← sync (usd_number freeCollateralETH);
    mret {| debt := debtUSD;
            collateral := collateralUSD;
            freeCollateral := freeCollateralUSD |}).

(** [async onSubscribeForm(args)] *)
Definition onSubscribeForm (args : Args) : Async (list FieldDescriptor) :=
  async (
    snapshot ← await (getFreeCollateral (address args));
    current ← sync (Call "amountFormatter" amountFormatter
                         (Num (freeCollateral snapshot)));
    mret [ {| fd_type := "input-number";
              fd_id := "free-collateral";
              fd_label := "Free Collateral";
              fd_default := of_Z 1000;
              fd_description :=
                "Notify me when account free collateral drops under X USD. (Currently: "
                +:+ current +:+ " USD)" |} ]).

(** [buildNotification(freeCollateral)] *)
Definition buildNotification (freeCollateral : reference) : completion Notification :=
  free ← Invoke "amountFormatter" amountFormatter "format"
                (Get freeCollateral key_freeCollateral);
  coll ← Invoke "amountFormatter" amountFormatter "format"
                (Get freeCollateral key_collateral);
  dbt ← Invoke "amountFormatter" amountFormatter "format"
               (Get freeCollateral key_debt);
  mret {| notification :=
    "Your account is low in free collateral and is at risk of getting liquidated. Free collateral: "
    +:+ free +:+ " USD | Collateral: " +:+ coll +:+ " USD | Debt: "
    +:+ dbt +:+ " USD" |}.

(** [async onBlocks(args)] *)
Definition onBlocks (args : Args) : Async blocks_result :=
  async (
    match subscription args with
    | None => mret NoResult
    | Some sub =>
        let freeCollateralThreshold := field sub "free-collateral" in
        accountFreeCollateral ← no_await (getFreeCollateral (address args));
        if less_than (Get (RefPromise accountFreeCollateral) key_freeCollateral)
                     freeCollateralThreshold
        then n ← sync (buildNotification (RefPromise accountFreeCollateral));
             mret (Notify n)
        else mret EmptyList
    end).

End Hooks.

End FreeCollateral.

(** ** A reference host and a ledger-backed SDK

    Concrete implementations of the two interfaces, on which the hooks can be
    run. Amounts are fixed-point integers with eight decimals, the SDK's
    internal precision; one ETH is quoted at [price] USD. *)

Module Reference.

(** Decimal digits of a string, read into a mantissa and the number of
    digits after the point; [seen] tells whether a digit was read. *)
Fixpoint read_digits (s : string) (mantissa : N) (decimals : option N)
    (seen : bool) : option (N * N) :=
  match s with
  | EmptyString => if seen then Some (mantissa, default 0%N decimals) else None
  | String c rest =>
      if Ascii.eqb c "."
      then match decimals with
           | None => read_digits rest mantissa (Some 0%N) seen
           | Some _ => None
           end
      else
        let d := (N_of_ascii c - 48)%N in
        if ((48 <=? N_of_ascii c) && (N_of_ascii c <=? 57))%N
        then read_digits rest (10 * mantissa + d)%N (N.succ <$> decimals) true
        else None
  end.

(** A natural number as a binary64 operand, not rounded. *)
Definition exact (n : N) : number :=
  match n with
  | N0 => S754_zero false
  | Npos m => S754_finite false m 0
  end.

(** [digits.digits] as a Number: the quotient of the mantissa by the power
    of ten, rounded once. *)
Definition unsigned_decimal (s : string) : number :=
  match read_digits s 0%N None false with
  | Some (m, k) => divide (exact m) (exact (10 ^ k))
  | None => NaN
  end.

(** [Number(s)] on the strings [toExactString] produces: plain decimal
    literals, [sign digits . digits] with either group of digits optional,
    and the empty string. The other forms [Number] reads (an exponent part,
    [Infinity], a radix prefix, surrounding white space) are outside the
    domain of this stand-in, which yields NaN on them. *)
Definition decimal_to_number (s : string) : number :=
  match s with
  | EmptyString => S754_zero false
  | String "-" rest => SFopp (unsigned_decimal rest)
  | String "+" rest => unsigned_decimal rest
  | _ => unsigned_decimal s
  end.

(** The integer a Number denotes, when it denotes one. *)
Definition to_integer (x : number) : option Z :=
  match x with
  | S754_zero _ => Some 0
  | S754_finite s m e =>
      let v := if s then Z.neg m else Z.pos m in
      if 0 <=? e then Some (v * 2 ^ e)
      else if v mod 2 ^ (- e) =? 0 then Some (v / 2 ^ (- e)) else None
  | _ => None
  end.

(** English short compact rendering of a natural number: two significant
    digits when a single digit precedes the point, none after the point
    otherwise, ties away from zero. Each row gives a unit, the least number
    that rounds into it and its suffix. *)
Definition compact_units : list (N * N * string) :=
  [(1000000000000, 999500000000, "T"); (1000000000, 999500000, "B");
   (1000000, 999500, "M"); (1000, 1000, "K")]%N.

Definition compact_scaled (n unit : N) (suffix : string) : string :=
  let tenths := ((20 * n + unit) / (2 * unit))%N in
  if (tenths <? 100)%N
  then pretty (tenths / 10)%N
       +:+ (if (tenths mod 10 =? 0)%N then "" else "." +:+ pretty (tenths mod 10)%N)
       +:+ suffix
  else pretty ((2 * n + unit) / (2 * unit))%N +:+ suffix.

Fixpoint compact_with (units : list (N * N * string)) (n : N) : string :=
  match units with
  | [] => pretty n
  | (unit, least, suffix) :: smaller =>
      if (least <=? n)%N then compact_scaled n unit suffix
      else compact_with smaller n
  end.

(** The [format] of [Intl.NumberFormat('en', { notation: 'compact' })] on
    the Numbers the examples use: NaN, the zeros, the infinities and the
    whole numbers up to 10^15. Numbers with a fractional part and larger
    ones are outside the domain of this stand-in; it renders the former as
    "NaN" and the latter without digit grouping. *)
Definition compact_en (x : number) : string :=
  match x with
  | S754_nan => "NaN"
  | S754_infinity s => if s then "-∞" else "∞"
  | S754_zero s => if s then "-0" else "0"
  | S754_finite s _ _ =>
      match to_integer x with
      | Some z => (if s then "-" else "") +:+ compact_with compact_units (Z.abs_N z)
      | None => "NaN"
      end
  end.

#[export] Instance host : Runtime := {|
  StringToNumber := decimal_to_number;
  FormatNumeric := fun _ => compact_en
|}.

(** Fixed-point amounts with eight decimals, printed exactly. *)
Definition scale : Z := 100000000.

Definition pad8 (digits : string) : string :=
  String.concat "" (repeat "0" (8 - String.length digits)%nat) +:+ digits.

Definition exact_string (amount : Z) : string :=
  (if amount <? 0 then "-" else "")
  +:+ pretty (Z.abs_N amount / Z.to_N scale)%N
  +:+ "." +:+ pad8 (pretty (Z.abs_N amount mod Z.to_N scale)%N).

(** The snapshot of the example: 2000 USD of debt against 1500 USD of
    collateral. *)
Definition underwater : FreeCollateral.FreeCollateralParams := {|
  FreeCollateral.debt := of_Z 2000;
  FreeCollateral.collateral := of_Z 1500;
  FreeCollateral.freeCollateral := of_Z (-500)
|}.

(** The SDK over a ledger of accounts, each with its debt and its collateral
    in ETH; unknown accounts are not found. *)
Definition ledger_sdk (price : Z) (ledger : gmap string (Z * Z)) : Notional.Sdk := {|
  Notional.handle := unit;
  Notional.Account := Z * Z;
  Notional.TypedBigNumber := Z;
  Notional.load := fun _ => Fulfilled tt;
  Notional.getAccountFromGraph := fun _ accountId =>
    match ledger !! accountId with
    | Some position => Fulfilled position
    | None => Rejected (Error "Error" "Could not load account")
    end;
  Notional.getFreeCollateral := fun position => Normal position;
  Notional.sub := fun a b => Normal (a - b);
  Notional.toUSD := fun a => Normal (a * price);
  Notional.toExactString := fun a => Normal (exact_string a)
|}.

(** The SDK when the network cannot be reached: the system does not load. *)
Definition offline_sdk : Notional.Sdk := {|
  Notional.handle := unit;
  Notional.Account := unit;
  Notional.TypedBigNumber := Z;
  Notional.load := fun _ => Rejected (Error "Error" "could not detect network");
  Notional.getAccountFromGraph := fun _ _ => Fulfilled tt;
  Notional.getFreeCollateral := fun _ => Normal (0, 0);
  Notional.sub := fun a b => Normal (a - b);
  Notional.toUSD := fun a => Normal a;
  Notional.toExactString := fun a => Normal (exact_string a)
|}.

(** One ETH at 2000 USD. *)
Definition price : Z := 2000.

(** An account owing 0.5 ETH against 0.7 ETH of collateral: 1000 USD of debt,
    1400 USD of collateral, 400 USD of free collateral. *)
Definition funded : gmap string (Z * Z) :=
  {[ "0xA11CE" := (50000000, 70000000) ]}.

(** An account owing 0.00005 ETH against 0.00015 ETH of collateral: 0.1 USD
    of debt, 0.3 USD of collateral. *)
Definition dust : gmap string (Z * Z) :=
  {[ "0xD057" := (5000, 15000) ]}.

(** An account owing 1 ETH against 0.75 ETH of collateral. *)
Definition insolvent : gmap string (Z * Z) :=
  {[ "0xBAD" := (100000000, 75000000) ]}.

(** Argument records: a subscriber with a threshold in USD, and a visitor
    who has not subscribed. *)
Definition subscribed (threshold : Z) (addr : string) : FreeCollateral.Args :=
  {| FreeCollateral.subscription :=
       Some {[ "free-collateral" := Num (of_Z threshold) ]};
     FreeCollateral.address := addr |}.

Definition visitor (addr : string) : FreeCollateral.Args :=
  {| FreeCollateral.subscription := None; FreeCollateral.address := addr |}.

End Reference.

(** ** Proof steps for bodies *)

(** Steps through one call in the body of [getFreeCollateral]. *)
Ltac step_call H :=
  match type of H with
  | context [match ?p with Fulfilled _ => _ | Rejected _ => _ end] =>
      let E := fresh "Hcall" in destruct p eqn:E; cbn in H; [|try discriminate H]
  | context [match ?c with Normal _ => _ | Throw _ => _ end] =>
      let E := fresh "Hcall" in destruct c eqn:E; cbn in H; [|try discriminate H]
  | context [let '(_, _) := ?x in _] =>
      destruct x; cbn in H
  end.

Ltac unfold_body :=
  unfold call, mbind, body_mbind, mret, body_mret, body_ret,
         await, await_io, sync; cbn.

Ltac unfold_body_in H :=
  unfold call, mbind, body_mbind, mret, body_mret, body_ret,
         await, await_io, sync in H; cbn in H.

(** ** Properties *)

(** *** The language fragment *)

Section JsFacts.
Context `{Runtime}.

(** [undefined < y] is false for every primitive [y]: [undefined] converts to
    NaN. *)
Lemma less_than_undefined (y : prim) : less_than Undefined y = false.
Proof. destruct y as [| |[]|n|s]; reflexivity. Qed.

(** Nothing is below [undefined] either. *)
Lemma less_than_undefined_r (x : prim) : less_than x Undefined = false.
Proof.
  destruct x as [| |[]|n|s]; try reflexivity; cbn.
  - destruct n; reflexivity.
  - destruct (StringToNumber s); reflexivity.
Qed.

(** Calling the formatter object itself throws a TypeError. *)
Lemma Call_NumberFormatInstance (text : string) (nf : NumberFormat) (arg : prim) :
  Call text (NumberFormatInstance nf) arg
  = Throw (TypeError (text +:+ " is not a function")).
Proof. reflexivity. Qed.

(** Calling its [format] method yields the rendering of the argument. *)
Lemma Invoke_format (text : string) (nf : NumberFormat) (arg : prim) :
  Invoke text (NumberFormatInstance nf) "format" arg
  = Normal (FormatNumeric nf (ToNumber arg)).
Proof. reflexivity. Qed.

Lemma IsCallable_Call (text : string) (f : object) (arg : prim) :
  IsCallable f = true <-> exists r, Call text f arg = Normal r.
Proof.
  destruct f; cbn; split; try discriminate; eauto.
  intros [r Hr]; discriminate.
Qed.

End JsFacts.

(** *** Counting "USD" *)

(** A stretch of text without the letter U holds no start of "USD". *)
Lemma occurrences_USD_skip (a b : string) :
  free_of "U" a = true ->
  occurrences "USD" (a +:+ b) = occurrences "USD" b.
Proof.
  induction a as [|c a IH]; intros Hfree; [reflexivity|].
  cbn [free_of] in Hfree. apply andb_prop in Hfree as [Hc Ha].
  apply negb_true_iff, Ascii.eqb_neq in Hc.
  change (String c a +:+ b) with (String c (a +:+ b)).
  cbn [occurrences String.prefix].
  destruct (ascii_dec "U" c) as [Heq|_]; [now elim Hc|].
  now rewrite IH.
Qed.

(** " USD" followed by such a stretch counts once. *)
Lemma occurrences_USD_hit (a b : string) :
  free_of "U" a = true ->
  occurrences "USD" (" USD" +:+ a +:+ b) = S (occurrences "USD" b).
Proof.
  intros Hfree.
  change (" USD" +:+ a +:+ b)
    with (String " " (String "U" (String "S" (String "D" (a +:+ b))))).
  cbn [occurrences String.prefix].
  destruct (ascii_dec "U" " ") as [Heq|_]; [discriminate Heq|].
  destruct (ascii_dec "U" "U") as [_|Hne]; [|now elim Hne].
  destruct (ascii_dec "S" "S") as [_|Hne]; [|now elim Hne].
  destruct (ascii_dec "D" "D") as [_|Hne]; [|now elim Hne].
  destruct (ascii_dec "U" "S") as [Heq|_]; [discriminate Heq|].
  destruct (ascii_dec "U" "D") as [Heq|_]; [discriminate Heq|].
  replace (String.prefix "" (a +:+ b)) with true by (now destruct (a +:+ b)).
  cbn [Nat.add]. f_equal. now apply occurrences_USD_skip.
Qed.

Section BodyFacts.
Context {event : Type}.
Implicit Types t : list event.

(** Running a sequence is running its first part, then the rest on what the
    first part returned, unless it threw. *)
Lemma run_bind {A B} (m : @Body event A) (f : A -> Body B) t :
  run (m ≫= f) t
  = match run m t with
    | (Normal a, t') => run (f a) t'
    | (Throw e, t') => (Throw e, t')
    end.
Proof.
  unfold mbind, body_mbind. revert t.
  induction m as [[a|e]|ev next IH|X p next IH]; intros t; cbn.
  - reflexivity.
  - reflexivity.
  - apply IH.
  - destruct p as [x|e]; [apply IH|reflexivity].
Qed.

Lemma bind_ret_l {A B} (a : A) (f : A -> Body B) t :
  run (mret a ≫= f) t = run (f a) t.
Proof. reflexivity. Qed.

Lemma bind_ret_r {A} (m : @Body event A) t : run (m ≫= mret) t = run m t.
Proof.
  rewrite run_bind. destruct (run m t) as [[a|e] t']; reflexivity.
Qed.

Lemma bind_assoc {A B C} (m : @Body event A) (f : A -> Body B) (g : B -> Body C) t :
  run ((m ≫= f) ≫= g) t = run (m ≫= (fun a => f a ≫= g)) t.
Proof.
  rewrite !run_bind. destruct (run m t) as [[a|e] t']; [|reflexivity].
  now rewrite run_bind.
Qed.

(** Awaiting the call of an async function runs its body in place. *)
Lemma await_async {A} (body : @Body event A) t :
  run (await (async body)) t = run body t.
Proof.
  unfold await. cbn [body_of].
  change (body_bind ?f body) with (body ≫= f). rewrite run_bind.
  destruct (run body t) as [[a|e] t']; reflexivity.
Qed.

Lemma run_await {A} (f : @Async event A) t :
  run (await f) t = (settle (fst (f t)), snd (f t)).
Proof.
  destruct f as [body]. rewrite await_async. unfold call. cbn [body_of].
  destruct (run body t) as [[a|e] t']; reflexivity.
Qed.

(** The log only grows, and a body has started its first requests whatever
    happens next. *)
Lemma run_started {A} (b : @Body event A) t :
  exists later, snd (run b t) = t ++ started b ++ later.
Proof.
  revert t. induction b as [c|ev next IH|X p next IH]; intros t; cbn.
  - exists []. now rewrite app_nil_r.
  - destruct (IH (t ++ [ev])) as [later ->]. exists later.
    now rewrite <- app_assoc.
  - destruct p as [x|e].
    + destruct (IH x t) as [later Hlater]. exists (started (next x) ++ later).
      exact Hlater.
    + exists []. now rewrite app_nil_r.
Qed.

(** How a run completes does not depend on the requests made before. *)
Lemma run_eventually {A} (b : @Body event A) t : fst (run b t) = eventually b.
Proof.
  revert t. induction b as [c|ev next IH|X p next IH]; intros t; cbn.
  - reflexivity.
  - apply IH.
  - destruct p as [x|e]; [apply IH|reflexivity].
Qed.

Lemma run_issue_all {A} (evs : list event) (c : completion A) t :
  run (fold_right Issue (Done c) evs) t = (c, t ++ evs).
Proof.
  revert t. induction evs as [|ev evs IH]; intros t; cbn.
  - now rewrite app_nil_r.
  - rewrite IH. now rewrite <- app_assoc.
Qed.

Lemma call_eventually {A} (f : @Async event A) t :
  fst (f t) = promise_of (eventually (body_of f)).
Proof.
  unfold call. rewrite <- (run_eventually (body_of f) t).
  destruct (run (body_of f) t) as [[a|e] t']; reflexivity.
Qed.

(** A call that is not awaited never throws into the caller, and the caller
    goes on when the callee has only started its first requests. *)
Lemma no_await_normal {A} (f : @Async event A) t :
  run (no_await f) t = (Normal (fst (f t)), t ++ started (body_of f)).
Proof.
  unfold no_await. rewrite run_issue_all. now rewrite call_eventually.
Qed.

Lemma bind_throw {A B} (m : @Body event A) (f : A -> Body B) t e t' :
  run m t = (Throw e, t') -> run (m ≫= f) t = (Throw e, t').
Proof. intros Hm. now rewrite run_bind, Hm. Qed.

Lemma bind_normal {A B} (m : @Body event A) (f : A -> Body B) t a t' :
  run m t = (Normal a, t') -> run (m ≫= f) t = run (f a) t'.
Proof. intros Hm. now rewrite run_bind, Hm. Qed.

Lemma async_fulfilled {A} (body : @Body event A) t a t' :
  async body t = (Fulfilled a, t') <-> run body t = (Normal a, t').
Proof.
  unfold call. cbn [body_of].
  destruct (run body t) as [[b|e] u]; split; congruence.
Qed.

Lemma async_rejected {A} (body : @Body event A) t e t' :
  async body t = (Rejected e, t') <-> run body t = (Throw e, t').
Proof.
  unfold call. cbn [body_of].
  destruct (run body t) as [[b|e0] u]; split; congruence.
Qed.

End BodyFacts.

(** *** The hooks *)

Import FreeCollateral.

Section HookFacts.
Context `{Runtime} `{Notional.Sdk}.
Implicit Types t : list Notional.request.

(** A fulfilled fetch went through every SDK call, in order, and logged the
    two network requests. *)
Lemma getFreeCollateral_inv (accountId : string) t s t' :
  getFreeCollateral accountId t = (Fulfilled s, t') ->
  exists h account dETH cETH fETH,
    Notional.load 1 = Fulfilled h
    /\ Notional.getAccountFromGraph h accountId = Fulfilled account
    /\ Notional.getFreeCollateral account = Normal (dETH, cETH)
    /\ Notional.sub cETH dETH = Normal fETH
    /\ usd_number dETH = Normal (debt s)
    /\ usd_number cETH = Normal (collateral s)
    /\ usd_number fETH = Normal (freeCollateral s)
    /\ t' = t ++ [Notional.LoadSystem 1; Notional.AccountFromGraph accountId].
Proof.
  intros Hrun. unfold getFreeCollateral in Hrun.
  apply async_fulfilled in Hrun. unfold_body_in Hrun.
  repeat step_call Hrun.
  injection Hrun as <- <-.
  do 5 eexists. repeat split; eauto.
  now rewrite <- app_assoc.
Qed.

(** What [Number(amount.toUSD().toExactString())] is when it returns. *)
Lemma usd_number_inv (amount : Notional.TypedBigNumber) (x : number) :
  usd_number amount = Normal x ->
  exists usd text,
    Notional.toUSD amount = Normal usd
    /\ Notional.toExactString usd = Normal text
    /\ x = Number text.
Proof.
  unfold usd_number, mbind, completion_mbind, mret, completion_mret.
  destruct (Notional.toUSD amount) as [usd|]; [|discriminate].
  destruct (Notional.toExactString usd) as [text|] eqn:Htext; [|discriminate].
  intros [= <-]. exists usd, text. auto.
Qed.

(** The fetch starts no request other than the two of the SDK, and only
    adds to the log. *)
Lemma getFreeCollateral_log (accountId : string) t :
  exists requests, snd (getFreeCollateral accountId t) = t ++ requests.
Proof.
  unfold getFreeCollateral. unfold_body.
  destruct (Notional.load 1); cbn; [|eexists; reflexivity].
  destruct (Notional.getAccountFromGraph _ _); cbn;
    [|eexists; rewrite <- app_assoc; reflexivity].
  exists [Notional.LoadSystem 1; Notional.AccountFromGraph accountId].
  rewrite <- app_assoc. cbn.
  destruct (Notional.getFreeCollateral _) as [[d c]|]; cbn; [|reflexivity].
  destruct (Notional.sub _ _); cbn; [|reflexivity].
  destruct (usd_number d); cbn; [|reflexivity].
  destruct (usd_number c); cbn; [|reflexivity].
  destruct (usd_number _); cbn; reflexivity.
Qed.

(** [onSubscribeForm] after a fetch that succeeded: the formatter object is
    called as a function. *)
Lemma onSubscribeForm_after_fetch (args : Args) t s t' :
  getFreeCollateral (address args) t = (Fulfilled s, t') ->
  onSubscribeForm args t
  = (Rejected (TypeError "amountFormatter is not a function"), t').
Proof.
  intros Hfetch. unfold onSubscribeForm, call at 1. cbn [body_of].
  now rewrite run_bind, run_await, Hfetch.
Qed.

(** [onSubscribeForm] after a fetch that failed. *)
Lemma onSubscribeForm_fetch_failed (args : Args) t e t' :
  getFreeCollateral (address args) t = (Rejected e, t') ->
  onSubscribeForm args t = (Rejected e, t').
Proof.
  intros Hfetch. unfold onSubscribeForm, call at 1. cbn [body_of].
  now rewrite run_bind, run_await, Hfetch.
Qed.

(** No call of [onSubscribeForm] is fulfilled. *)
Lemma onSubscribeForm_never_fulfilled (args : Args) t :
  exists e, fst (onSubscribeForm args t) = Rejected e.
Proof.
  destruct (getFreeCollateral (address args) t) as [[s|e] t'] eqn:Hfetch.
  - rewrite (onSubscribeForm_after_fetch _ _ _ _ Hfetch). eauto.
  - rewrite (onSubscribeForm_fetch_failed _ _ _ _ Hfetch). eauto.
Qed.

(** The fetch starts the load of the system before it first suspends, and
    nothing else. *)
Lemma getFreeCollateral_started (accountId : string) :
  started (body_of (getFreeCollateral accountId)) = [Notional.LoadSystem 1].
Proof. reflexivity. Qed.

(** [onBlocks] with a subscription: the comparison reads a property of the
    promise, so the notification branch is dead; and the hook completes when
    the fetch has only started. *)
Lemma onBlocks_subscribed (sub : gmap string prim) (addr : string) t :
  onBlocks {| subscription := Some sub; address := addr |} t
  = (Fulfilled EmptyList, t ++ [Notional.LoadSystem 1]).
Proof.
  unfold onBlocks, call. cbn [body_of subscription address].
  rewrite run_bind, no_await_normal, getFreeCollateral_started.
  cbn -[less_than]. rewrite less_than_undefined. reflexivity.
Qed.

(** [buildNotification] on any reference: the three renderings in place. *)
Lemma buildNotification_shape (o : reference) :
  buildNotification o
  = Normal {| notification :=
      "Your account is low in free collateral and is at risk of getting liquidated. Free collateral: "
      +:+ FormatNumeric amountFormat (ToNumber (Get o key_freeCollateral))
      +:+ " USD | Collateral: "
      +:+ FormatNumeric amountFormat (ToNumber (Get o key_collateral))
      +:+ " USD | Debt: "
      +:+ FormatNumeric amountFormat (ToNumber (Get o key_debt))
      +:+ " USD" |}.
Proof. reflexivity. Qed.

(** Whatever the snapshot, the notification holds "USD" exactly three times,
    as long as the renderings of the formatter have no letter U (English
    compact renderings are made of digits, separators, a sign and one of
    K, M, B, T). *)
Lemma buildNotification_three_USD (o : reference) (n : Notification) :
  (forall x, free_of "U" (FormatNumeric amountFormat x) = true) ->
  buildNotification o = Normal n ->
  occurrences "USD" (notification n) = 3%nat.
Proof.
  intros Hfree Hn. rewrite buildNotification_shape in Hn.
  injection Hn as <-. cbn [notification].
  rewrite occurrences_USD_skip by reflexivity.
  rewrite occurrences_USD_skip by apply Hfree.
  change (" USD | Collateral: " +:+ ?rest)
    with (" USD" +:+ " | Collateral: " +:+ rest).
  rewrite occurrences_USD_hit by reflexivity.
  rewrite occurrences_USD_skip by apply Hfree.
  change (" USD | Debt: " +:+ ?rest) with (" USD" +:+ " | Debt: " +:+ rest).
  rewrite occurrences_USD_hit by reflexivity.
  rewrite occurrences_USD_skip by apply Hfree.
  reflexivity.
Qed.

(** [onBlocks] resolves to [undefined] or to the empty list, and to nothing
    else. *)
Lemma onBlocks_never_notifies (args : Args) t :
  fst (onBlocks args t) = Fulfilled NoResult
  \/ fst (onBlocks args t) = Fulfilled EmptyList.
Proof.
  destruct args as [[sub|] addr].
  - right. now rewrite onBlocks_subscribed.
  - left. reflexivity.
Qed.

End HookFacts.

(** *** The hooks, claim by claim *)

Section Claims.
Context `{Runtime} `{Notional.Sdk}.
Implicit Types t : list Notional.request.

(** C10. [onInit] completes, for every argument record and whatever requests
    were made before: its promise is fulfilled with no value, and the log of
    network requests is left as it was. *)
Theorem onInit_no_effect (args : Args) t :
  onInit args t = (Fulfilled tt, t).
Proof. reflexivity. Qed.

(** C6. Without a [subscription] key, [onBlocks] resolves to [undefined]:
    no notification, no rejection, and no request is started. *)
Theorem onBlocks_no_subscription (addr : string) t :
  onBlocks {| subscription := None; address := addr |} t = (Fulfilled NoResult, t)
  /\ rejection (fst (onBlocks {| subscription := None; address := addr |} t)) = None
  /\ forall n, fst (onBlocks {| subscription := None; address := addr |} t)
               <> Fulfilled (Notify n).
Proof. repeat split; discriminate. Qed.

(** C3. With a subscription, [onBlocks] resolves to the empty list and never
    to a notification, whatever the threshold, the address and the outcome
    of the fetch: the value compared is the [freeCollateral] property of the
    promise, which is [undefined], and [undefined < threshold] is false for
    every Number (indeed for every primitive). *)
Theorem onBlocks_subscribed_yields_empty_list
    (sub : gmap string prim) (addr : string) t :
  let args := {| subscription := Some sub; address := addr |} in
  fst (onBlocks args t) = Fulfilled EmptyList
  /\ (forall n, fst (onBlocks args t) <> Fulfilled (Notify n))
  /\ Get (RefPromise (fst (getFreeCollateral addr t))) key_freeCollateral = Undefined
  /\ (forall threshold : number, less_than Undefined (Num threshold) = false)
  /\ less_than Undefined (field sub "free-collateral") = false.
Proof.
  cbn zeta. rewrite onBlocks_subscribed. cbn [fst].
  split; [reflexivity|]. split; [discriminate|]. split; [reflexivity|].
  split; [intros threshold|]; apply less_than_undefined.
Qed.

(** C9. When the fetch of the snapshot fails, [onSubscribeForm] is rejected
    with the very error of the fetch, and no list of field descriptors is
    produced in its place. *)
Theorem onSubscribeForm_fetch_failure_propagates (args : Args) t e t' :
  getFreeCollateral (address args) t = (Rejected e, t') ->
  onSubscribeForm args t = (Rejected e, t')
  /\ forall fields, fst (onSubscribeForm args t) <> Fulfilled fields.
Proof.
  intros Hfetch. rewrite (onSubscribeForm_fetch_failed _ _ _ _ Hfetch).
  split; [reflexivity | discriminate].
Qed.

(** C4, as amended. For every address for which the fetch of the snapshot
    succeeds, [onSubscribeForm] is rejected with a TypeError: the formatter
    object is not callable, although its [format] method is. *)
Theorem onSubscribeForm_TypeError_after_fetch (args : Args) t s t' :
  getFreeCollateral (address args) t = (Fulfilled s, t') ->
  (exists e, onSubscribeForm args t = (Rejected e, t') /\ name e = "TypeError")
  /\ IsCallable amountFormatter = false
  /\ exists f, GetMethod amountFormatter "format" = Some f /\ IsCallable f = true.
Proof.
  intros Hfetch. rewrite (onSubscribeForm_after_fetch _ _ _ _ Hfetch).
  repeat split; eauto.
Qed.

(** C5, as amended. In every snapshot returned by [getFreeCollateral], [debt]
    and [collateral] are the Number conversions of the USD values of the two
    ETH amounts of the SDK, and [freeCollateral] is the Number conversion of
    the USD value of their difference, collateral minus debt, taken by the
    SDK on the ETH amounts. *)
Theorem getFreeCollateral_converts_difference (accountId : string) t s t' :
  getFreeCollateral accountId t = (Fulfilled s, t') ->
  exists h account dETH cETH fETH,
    Notional.load 1 = Fulfilled h
    /\ Notional.getAccountFromGraph h accountId = Fulfilled account
    /\ Notional.getFreeCollateral account = Normal (dETH, cETH)
    /\ Notional.sub cETH dETH = Normal fETH
    /\ usd_number dETH = Normal (debt s)
    /\ usd_number cETH = Normal (collateral s)
    /\ usd_number fETH = Normal (freeCollateral s).
Proof.
  intros Hfetch.
  destruct (getFreeCollateral_inv _ _ _ _ Hfetch)
    as (h & account & dETH & cETH & fETH
        & Hh & Ha & Hfc & Hsub & Hd & Hc & Hf & _).
  exists h, account, dETH, cETH, fETH.
  repeat split; assumption.
Qed.

(** C7. On [{debt: 2000, collateral: 1500, freeCollateral: -500}], with the
    English compact renderings "2K", "1.5K" and "-500" of the three figures,
    the notification contains the three renderings, contains "USD" exactly
    three times and shows the free collateral with its minus sign; and
    [buildNotification] returns normally on every snapshot. *)
Theorem buildNotification_underwater :
  FormatNumeric amountFormat (of_Z 2000) = "2K" ->
  FormatNumeric amountFormat (of_Z 1500) = "1.5K" ->
  FormatNumeric amountFormat (of_Z (-500)) = "-500" ->
  (exists n,
      buildNotification (RefSnapshot Reference.underwater) = Normal n
      /\ includes "Free collateral: -500 USD" (notification n) = true
      /\ includes "Collateral: 1.5K USD" (notification n) = true
      /\ includes "Debt: 2K USD" (notification n) = true
      /\ occurrences "USD" (notification n) = 3%nat)
  /\ forall s : FreeCollateralParams,
       exists n, buildNotification (RefSnapshot s) = Normal n.
Proof.
  intros Hdebt Hcollateral Hfree. split.
  - eexists. split; [apply buildNotification_shape|].
    cbn [notification Get Reference.underwater ToNumber
         debt collateral freeCollateral].
    rewrite Hdebt, Hcollateral, Hfree.
    repeat split; vm_compute; reflexivity.
  - intros s. eexists. apply buildNotification_shape.
Qed.

End Claims.

(** *** The hooks on the reference host and ledgers *)

Section OnLedgers.
Import Reference.

(** C1. The account has 400 USD of free collateral and the subscription a
    threshold of 500 USD: the snapshot is below the threshold, yet [onBlocks]
    resolves to the empty list instead of a notification. *)
Theorem onBlocks_misses_low_collateral :
  (exists s,
      fst (@getFreeCollateral host (ledger_sdk price funded) "0xA11CE" [])
      = Fulfilled s
      /\ freeCollateral s = of_Z 400
      /\ @less_than host (Num (freeCollateral s)) (Num (of_Z 500)) = true)
  /\ fst (@onBlocks host (ledger_sdk price funded) (subscribed 500 "0xA11CE") [])
     = Fulfilled EmptyList.
Proof.
  split.
  - eexists. split; [vm_compute; reflexivity|].
    split; vm_compute; reflexivity.
  - vm_compute; reflexivity.
Qed.

(** C2. The fetch succeeds for the account, yet [onSubscribeForm] is rejected
    with a TypeError and returns no field descriptor. *)
Theorem onSubscribeForm_rejected_after_fetch :
  (exists s,
      fst (@getFreeCollateral host (ledger_sdk price funded) "0xA11CE" [])
      = Fulfilled s)
  /\ fst (@onSubscribeForm host (ledger_sdk price funded) (visitor "0xA11CE") [])
     = Rejected (TypeError "amountFormatter is not a function")
  /\ forall fields,
       fst (@onSubscribeForm host (ledger_sdk price funded) (visitor "0xA11CE") [])
       <> Fulfilled fields.
Proof.
  split; [eexists; vm_compute; reflexivity|].
  split; [vm_compute; reflexivity|].
  intros fields. vm_compute. discriminate.
Qed.

(** C4, as stated, fails: for an address the ledger does not know, the fetch
    fails and [onSubscribeForm] is rejected with the error of the fetch,
    which is no TypeError. *)
Lemma onSubscribeForm_not_always_TypeError :
  ~ (forall (R : Runtime) (S : Notional.Sdk) (args : Args)
            (t : list Notional.request),
        exists e, fst (onSubscribeForm args t) = Rejected e
                  /\ name e = "TypeError").
Proof.
  intros Hall.
  destruct (Hall host (ledger_sdk price funded) (visitor "0xB0B") [])
    as (e & Hrejected & Hname).
  vm_compute in Hrejected. injection Hrejected as <-.
  discriminate Hname.
Qed.

(** C5, as stated, fails: with 0.3 USD of collateral and 0.1 USD of debt the
    snapshot holds [freeCollateral = 0.2], while [0.3 - 0.1] on Numbers is
    [0.19999999999999998]. *)
Lemma freeCollateral_not_always_difference :
  ~ (forall (R : Runtime) (S : Notional.Sdk) (accountId : string)
            (t : list Notional.request) s t',
        getFreeCollateral accountId t = (Fulfilled s, t') ->
        strict_eq (freeCollateral s) (minus (collateral s) (debt s)) = true).
Proof.
  intros Hall.
  pose proof (Hall host (ledger_sdk price dust) "0xD057" []) as Hdust.
  destruct (@getFreeCollateral host (ledger_sdk price dust) "0xD057" [])
    as [[s|e] t'] eqn:Hfetch; vm_compute in Hfetch; [|discriminate Hfetch].
  injection Hfetch as <- <-.
  specialize (Hdust _ _ eq_refl). vm_compute in Hdust. discriminate Hdust.
Qed.

(** The three Numbers of that snapshot. *)
Example dust_snapshot :
  fst (@getFreeCollateral host (ledger_sdk price dust) "0xD057" [])
  = Fulfilled {| debt := S754_finite false 7205759403792794 (-56);
                 collateral := S754_finite false 5404319552844595 (-54);
                 freeCollateral := S754_finite false 7205759403792794 (-55) |}
  /\ minus (S754_finite false 5404319552844595 (-54))
           (S754_finite false 7205759403792794 (-56))
     = S754_finite false 7205759403792793 (-55).
Proof. split; vm_compute; reflexivity. Qed.

(** On whole amounts the two agree, also below zero: 1500 USD of collateral
    against 2000 USD of debt give -500 USD. *)
Example insolvent_snapshot :
  fst (@getFreeCollateral host (ledger_sdk price insolvent) "0xBAD" [])
  = Fulfilled underwater
  /\ freeCollateral underwater = minus (collateral underwater) (debt underwater).
Proof. split; vm_compute; reflexivity. Qed.

(** C9 at an address the ledger does not know. *)
Lemma onSubscribeForm_fetch_failure_propagates_witness :
  @getFreeCollateral host (ledger_sdk price funded) "0xB0B" []
  = (Rejected (Error "Error" "Could not load account"),
     [Notional.LoadSystem 1; Notional.AccountFromGraph "0xB0B"])
  /\ @onSubscribeForm host (ledger_sdk price funded) (visitor "0xB0B") []
     = (Rejected (Error "Error" "Could not load account"),
        [Notional.LoadSystem 1; Notional.AccountFromGraph "0xB0B"]).
Proof.
  split; [vm_compute; reflexivity|].
  refine (proj1 (@onSubscribeForm_fetch_failure_propagates
                   host (ledger_sdk price funded) (visitor "0xB0B") [] _ _ _)).
  vm_compute; reflexivity.
Defined.

(** C4, as amended, at the funded account. *)
Lemma onSubscribeForm_TypeError_after_fetch_witness :
  fst (@getFreeCollateral host (ledger_sdk price funded) "0xA11CE" [])
  = Fulfilled {| debt := of_Z 1000; collateral := of_Z 1400;
                 freeCollateral := of_Z 400 |}
  /\ exists e,
       @onSubscribeForm host (ledger_sdk price funded) (visitor "0xA11CE") []
       = (Rejected e, [Notional.LoadSystem 1; Notional.AccountFromGraph "0xA11CE"])
       /\ name e = "TypeError".
Proof.
  split; [vm_compute; reflexivity|].
  refine (proj1 (@onSubscribeForm_TypeError_after_fetch
                   host (ledger_sdk price funded) (visitor "0xA11CE") []
                   {| debt := of_Z 1000; collateral := of_Z 1400;
                      freeCollateral := of_Z 400 |} _ _)).
  vm_compute; reflexivity.
Defined.

(** C5, as amended, at the insolvent account. *)
Lemma getFreeCollateral_converts_difference_witness :
  @getFreeCollateral host (ledger_sdk price insolvent) "0xBAD" []
  = (Fulfilled underwater,
     [Notional.LoadSystem 1; Notional.AccountFromGraph "0xBAD"])
  /\ exists (dETH cETH : Z),
       @usd_number host (ledger_sdk price insolvent) dETH
       = Normal (debt underwater)
       /\ @usd_number host (ledger_sdk price insolvent) cETH
          = Normal (collateral underwater)
       /\ @usd_number host (ledger_sdk price insolvent) (cETH - dETH)
          = Normal (freeCollateral underwater).
Proof.
  split; [vm_compute; reflexivity|].
  destruct (@getFreeCollateral_converts_difference
              host (ledger_sdk price insolvent) "0xBAD" [] underwater
              [Notional.LoadSystem 1; Notional.AccountFromGraph "0xBAD"])
    as (_ & _ & dETH & cETH & fETH & _ & _ & _ & Hsub & Hd & Hc & Hf).
  - vm_compute; reflexivity.
  - exists dETH, cETH. injection Hsub as <-. repeat split; assumption.
Defined.

(** C7 on the reference host. *)
Lemma buildNotification_underwater_witness :
  (compact_en (of_Z 2000) = "2K"
   /\ compact_en (of_Z 1500) = "1.5K"
   /\ compact_en (of_Z (-500)) = "-500")
  /\ exists n,
       @buildNotification host (RefSnapshot underwater) = Normal n
       /\ includes "Free collateral: -500 USD" (notification n) = true
       /\ includes "Collateral: 1.5K USD" (notification n) = true
       /\ includes "Debt: 2K USD" (notification n) = true
       /\ occurrences "USD" (notification n) = 3%nat.
Proof.
  split; [repeat split; vm_compute; reflexivity|].
  refine (proj1 (@buildNotification_underwater host _ _ _));
    vm_compute; reflexivity.
Defined.

End OnLedgers.

(** ** Further properties of the hooks *)

Section Fetch.
Context `{Runtime} `{Notional.Sdk}.
Implicit Types t : list Notional.request.

(** X1. When every call into the SDK succeeds, the fetch is fulfilled with
    the three converted amounts, the difference being collateral minus debt,
    and it has made two requests: the system of chain 1, then the account. *)
Theorem getFreeCollateral_fulfilled
    (accountId : string) t h account dETH cETH fETH (d c f : number) :
  Notional.load 1 = Fulfilled h ->
  Notional.getAccountFromGraph h accountId = Fulfilled account ->
  Notional.getFreeCollateral account = Normal (dETH, cETH) ->
  Notional.sub cETH dETH = Normal fETH ->
  usd_number dETH = Normal d ->
  usd_number cETH = Normal c ->
  usd_number fETH = Normal f ->
  getFreeCollateral accountId t
  = (Fulfilled {| debt := d; collateral := c; freeCollateral := f |},
     t ++ [Notional.LoadSystem 1; Notional.AccountFromGraph accountId]).
Proof.
  intros Hload Haccount Hposition Hsub Hd Hc Hf.
  unfold getFreeCollateral. unfold_body.
  rewrite Hload; cbn. rewrite Haccount; cbn. rewrite Hposition; cbn.
  rewrite Hsub; cbn. rewrite Hd; cbn. rewrite Hc; cbn. rewrite Hf; cbn.
  now rewrite <- app_assoc.
Qed.

(** X2. When the system does not load, the fetch is rejected with the error
    of the load, and the account is never requested. *)
Theorem getFreeCollateral_load_failure (accountId : string) t e :
  Notional.load 1 = Rejected e ->
  getFreeCollateral accountId t = (Rejected e, t ++ [Notional.LoadSystem 1])
  /\ ~ In (Notional.AccountFromGraph accountId)
          (skipn (length t) (snd (getFreeCollateral accountId t))).
Proof.
  intros Hload.
  assert (getFreeCollateral accountId t
          = (Rejected e, t ++ [Notional.LoadSystem 1])) as Hrun.
  { unfold getFreeCollateral. unfold_body. now rewrite Hload. }
  split; [exact Hrun|].
  rewrite Hrun. cbn [snd].
  rewrite skipn_app, skipn_all, Nat.sub_diag. cbn.
  intros [Heq|[]]. discriminate Heq.
Qed.

(** X3. When the account cannot be resolved, the fetch is rejected with the
    error of the resolution, after both requests. *)
Theorem getFreeCollateral_account_failure (accountId : string) t h e :
  Notional.load 1 = Fulfilled h ->
  Notional.getAccountFromGraph h accountId = Rejected e ->
  getFreeCollateral accountId t
  = (Rejected e,
     t ++ [Notional.LoadSystem 1; Notional.AccountFromGraph accountId]).
Proof.
  intros Hload Haccount.
  unfold getFreeCollateral. unfold_body.
  rewrite Hload; cbn. rewrite Haccount; cbn.
  now rewrite <- app_assoc.
Qed.

(** A conversion to a USD Number throws only what [toUSD] or
    [toExactString] throws. *)
Lemma usd_number_throw (amount : Notional.TypedBigNumber) (e : error) :
  usd_number amount = Throw e ->
  Notional.toUSD amount = Throw e
  \/ exists usd, Notional.toUSD amount = Normal usd
                 /\ Notional.toExactString usd = Throw e.
Proof.
  unfold usd_number, mbind, completion_mbind, mret, completion_mret.
  destruct (Notional.toUSD amount) as [usd|e1]; [|intros [= ->]; now left].
  destruct (Notional.toExactString usd) as [text|e2] eqn:Htext; [discriminate|].
  intros [= ->]. right. eauto.
Qed.

(** X4. The fetch raises no error of its own: whenever it is rejected, the
    error is the one of the first SDK call that failed, in the order load,
    account, position, difference, then the conversions of the debt, of the
    collateral and of the difference. *)
Theorem getFreeCollateral_rejection_origin (accountId : string) t e t' :
  getFreeCollateral accountId t = (Rejected e, t') ->
  Notional.load 1 = Rejected e
  \/ exists h, Notional.load 1 = Fulfilled h /\
     (Notional.getAccountFromGraph h accountId = Rejected e
      \/ exists account,
         Notional.getAccountFromGraph h accountId = Fulfilled account /\
         (Notional.getFreeCollateral account = Throw e
          \/ exists dETH cETH,
             Notional.getFreeCollateral account = Normal (dETH, cETH) /\
             (Notional.sub cETH dETH = Throw e
              \/ exists fETH, Notional.sub cETH dETH = Normal fETH /\
                 (usd_number dETH = Throw e
                  \/ (exists d, usd_number dETH = Normal d
                                /\ usd_number cETH = Throw e)
                  \/ (exists d c, usd_number dETH = Normal d
                                  /\ usd_number cETH = Normal c
                                  /\ usd_number fETH = Throw e))))).
Proof.
  intros Hrun. unfold getFreeCollateral in Hrun.
  apply async_rejected in Hrun. unfold_body_in Hrun.
  destruct (Notional.load 1) as [h|e0]; cbn in Hrun;
    [|injection Hrun as -> _; now left].
  right. exists h. split; [reflexivity|].
  destruct (Notional.getAccountFromGraph h accountId) as [account|e0];
    cbn in Hrun; [|injection Hrun as -> _; now left].
  right. exists account. split; [reflexivity|].
  destruct (Notional.getFreeCollateral account) as [[dETH cETH]|e0];
    cbn in Hrun; [|injection Hrun as -> _; now left].
  right. exists dETH, cETH. split; [reflexivity|].
  destruct (Notional.sub cETH dETH) as [fETH|e0];
    cbn in Hrun; [|injection Hrun as -> _; now left].
  right. exists fETH. split; [reflexivity|].
  destruct (usd_number dETH) as [d|e0];
    cbn in Hrun; [|injection Hrun as -> _; now left].
  right.
  destruct (usd_number cETH) as [c|e0];
    cbn in Hrun; [|injection Hrun as -> _; left; eauto].
  right.
  destruct (usd_number fETH) as [f|e0];
    cbn in Hrun; [discriminate Hrun|injection Hrun as -> _; eauto].
Qed.

(** X5. The fetch leaves the requests made before it in place and adds one
    request when the system does not load, two otherwise: always for chain
    1, and for the account it was given. *)
Theorem getFreeCollateral_requests (accountId : string) t :
  (exists e, Notional.load 1 = Rejected e
             /\ snd (getFreeCollateral accountId t)
                = t ++ [Notional.LoadSystem 1])
  \/ (exists h, Notional.load 1 = Fulfilled h
                /\ snd (getFreeCollateral accountId t)
                   = t ++ [Notional.LoadSystem 1;
                           Notional.AccountFromGraph accountId]).
Proof.
  unfold getFreeCollateral. unfold_body.
  destruct (Notional.load 1) as [h|e]; cbn; [right; exists h|left; eauto].
  split; [reflexivity|]. rewrite <- app_assoc. cbn [app].
  destruct (Notional.getAccountFromGraph h accountId) as [account|];
    cbn; [|reflexivity].
  destruct (Notional.getFreeCollateral account) as [[d c]|]; cbn; [|reflexivity].
  destruct (Notional.sub c d); cbn; [|reflexivity].
  destruct (usd_number d); cbn; [|reflexivity].
  destruct (usd_number c); cbn; [|reflexivity].
  destruct (usd_number _); cbn; reflexivity.
Qed.

(** X6. [onSubscribeForm] is rejected in every case and makes the requests
    of one fetch for [args.address]: with the error of the fetch when the
    fetch fails, with the TypeError of the formatter call when it succeeds. *)
Theorem onSubscribeForm_outcome (args : Args) t :
  onSubscribeForm args t
  = (Rejected match fst (getFreeCollateral (address args) t) with
              | Fulfilled _ => TypeError "amountFormatter is not a function"
              | Rejected e => e
              end,
     snd (getFreeCollateral (address args) t)).
Proof.
  destruct (getFreeCollateral (address args) t) as [[s|e] t'] eqn:Hfetch; cbn.
  - exact (onSubscribeForm_after_fetch _ _ _ _ Hfetch).
  - exact (onSubscribeForm_fetch_failed _ _ _ _ Hfetch).
Qed.

(** X7. With a subscription, [onBlocks] starts the fetch for [args.address]
    and completes without waiting for it: when its promise settles, the load
    of the system is the one request the fetch has made, and the fields of
    the subscription change neither the result nor the requests. *)
Theorem onBlocks_ignores_subscription_fields
    (sub1 sub2 : gmap string prim) (addr : string) t :
  onBlocks {| subscription := Some sub1; address := addr |} t
  = onBlocks {| subscription := Some sub2; address := addr |} t
  /\ snd (onBlocks {| subscription := Some sub1; address := addr |} t)
     = t ++ [Notional.LoadSystem 1]
  /\ ~ In (Notional.AccountFromGraph addr)
          (skipn (length t)
             (snd (onBlocks {| subscription := Some sub1; address := addr |} t))).
Proof.
  rewrite !onBlocks_subscribed. cbn [snd].
  split; [reflexivity|]. split; [reflexivity|].
  rewrite skipn_app, skipn_all, Nat.sub_diag. cbn.
  intros [Heq|[]]. discriminate Heq.
Qed.

End Fetch.

(** *** The notification text *)

Lemma free_of_app (c : ascii) (a b : string) :
  free_of c (a +:+ b) = free_of c a && free_of c b.
Proof.
  induction a as [|c' a IH]; [reflexivity|].
  change (String c' a +:+ b) with (String c' (a +:+ b)).
  cbn [free_of]. now rewrite IH, andb_assoc.
Qed.

Section NotificationText.
Context `{Runtime}.

(** X8. Whatever the snapshot, [buildNotification] returns a notification
    that holds "USD" exactly three times, provided the renderings of the
    formatter hold no letter U. *)
Theorem buildNotification_counts_USD (s : FreeCollateralParams) :
  (forall x, free_of "U" (FormatNumeric amountFormat x) = true) ->
  exists n, buildNotification (RefSnapshot s) = Normal n
            /\ occurrences "USD" (notification n) = 3%nat.
Proof.
  intros Hfree. rewrite buildNotification_shape. eexists. split; [reflexivity|].
  cbn [notification].
  repeat first
    [ rewrite occurrences_USD_skip by (reflexivity || apply Hfree)
    | match goal with
      | |- context [" USD | Collateral: " +:+ ?rest] =>
          change (" USD | Collateral: " +:+ rest)
            with (" USD" +:+ " | Collateral: " +:+ rest)
      | |- context [" USD | Debt: " +:+ ?rest] =>
          change (" USD | Debt: " +:+ rest) with (" USD" +:+ " | Debt: " +:+ rest)
      end; rewrite occurrences_USD_hit by reflexivity ].
  reflexivity.
Qed.

End NotificationText.

(** *** The reference host renders without the letter U *)

Section ReferenceHost.
Import Reference.

Lemma pretty_N_char_free (d : N) : free_of "U" (String (pretty_N_char d) "") = true.
Proof. unfold pretty_N_char. repeat case_match; reflexivity. Qed.

Lemma pretty_N_go_free (x : N) :
  forall s, free_of "U" s = true -> free_of "U" (pretty_N_go x s) = true.
Proof.
  induction x as [x IH] using (well_founded_induction N.lt_wf_0).
  intros s Hs. destruct (N.eq_dec x 0%N) as [->|Hx]; [exact Hs|].
  rewrite pretty_N_go_step by lia.
  apply IH; [apply N.div_lt; lia|].
  change (String ?c s) with (String c "" +:+ s).
  now rewrite free_of_app, pretty_N_char_free, Hs.
Qed.

Lemma pretty_N_free (n : N) : free_of "U" (pretty n) = true.
Proof.
  unfold pretty, pretty_N.
  destruct (decide (n = 0%N)); [reflexivity|now apply pretty_N_go_free].
Qed.

Lemma compact_scaled_free (n unit : N) (suffix : string) :
  free_of "U" suffix = true -> free_of "U" (compact_scaled n unit suffix) = true.
Proof.
  intros Hsuffix. unfold compact_scaled.
  repeat match goal with |- context [if ?b then _ else _] => destruct b end;
    rewrite ?free_of_app, ?pretty_N_free, ?Hsuffix; reflexivity.
Qed.

Lemma compact_en_free (x : number) : free_of "U" (compact_en x) = true.
Proof.
  unfold compact_en. destruct x as [[]|[]| |s m e]; try reflexivity.
  destruct (to_integer (S754_finite s m e)) as [z|]; [|reflexivity].
  rewrite free_of_app.
  assert (free_of "U" (compact_with compact_units (Z.abs_N z)) = true) as ->.
  { unfold compact_units. cbn [compact_with].
    repeat match goal with
           | |- context [if (?a <=? ?b)%N then _ else _] => destruct (a <=? b)%N
           end;
      first [now apply compact_scaled_free | apply pretty_N_free]. }
  now destruct s.
Qed.

(** X1 at the funded account. *)
Lemma getFreeCollateral_fulfilled_witness :
  (@Notional.getAccountFromGraph (ledger_sdk price funded) tt "0xA11CE"
   = Fulfilled (50000000, 70000000)
   /\ @usd_number host (ledger_sdk price funded) 50000000 = Normal (of_Z 1000)
   /\ @usd_number host (ledger_sdk price funded) 70000000 = Normal (of_Z 1400)
   /\ @usd_number host (ledger_sdk price funded) 20000000 = Normal (of_Z 400))
  /\ @getFreeCollateral host (ledger_sdk price funded) "0xA11CE" []
     = (Fulfilled {| debt := of_Z 1000; collateral := of_Z 1400;
                     freeCollateral := of_Z 400 |},
        [Notional.LoadSystem 1; Notional.AccountFromGraph "0xA11CE"]).
Proof.
  split; [repeat split; vm_compute; reflexivity|].
  refine (@getFreeCollateral_fulfilled host (ledger_sdk price funded)
            "0xA11CE" [] tt (50000000, 70000000) 50000000 70000000 20000000
            (of_Z 1000) (of_Z 1400) (of_Z 400) _ _ _ _ _ _ _);
    vm_compute; reflexivity.
Defined.

(** X2 when the network cannot be reached. *)
Lemma getFreeCollateral_load_failure_witness :
  @Notional.load offline_sdk 1 = Rejected (Error "Error" "could not detect network")
  /\ @getFreeCollateral host offline_sdk "0xA11CE" []
     = (Rejected (Error "Error" "could not detect network"),
        [Notional.LoadSystem 1]).
Proof.
  split; [reflexivity|].
  refine (proj1 (@getFreeCollateral_load_failure host offline_sdk
                   "0xA11CE" [] _ _)).
  reflexivity.
Defined.

(** X3 at an address the ledger does not know. *)
Lemma getFreeCollateral_account_failure_witness :
  @Notional.getAccountFromGraph (ledger_sdk price funded) tt "0xB0B"
  = Rejected (Error "Error" "Could not load account")
  /\ @getFreeCollateral host (ledger_sdk price funded) "0xB0B" []
     = (Rejected (Error "Error" "Could not load account"),
        [Notional.LoadSystem 1; Notional.AccountFromGraph "0xB0B"]).
Proof.
  split; [vm_compute; reflexivity|].
  refine (@getFreeCollateral_account_failure host (ledger_sdk price funded)
            "0xB0B" [] tt _ _ _); vm_compute; reflexivity.
Defined.

(** X4 at an address the ledger does not know: the error is the one of the
    account resolution. *)
Lemma getFreeCollateral_rejection_origin_witness :
  @getFreeCollateral host (ledger_sdk price funded) "0xB0B" []
  = (Rejected (Error "Error" "Could not load account"),
     [Notional.LoadSystem 1; Notional.AccountFromGraph "0xB0B"])
  /\ @Notional.getAccountFromGraph (ledger_sdk price funded) tt "0xB0B"
     = Rejected (Error "Error" "Could not load account").
Proof.
  split; [vm_compute; reflexivity|].
  destruct (@getFreeCollateral_rejection_origin host (ledger_sdk price funded)
              "0xB0B" [] (Error "Error" "Could not load account")
              [Notional.LoadSystem 1; Notional.AccountFromGraph "0xB0B"])
    as [Hload | ([] & _ & [Haccount | (account & Hfound & _)])].
  - vm_compute; reflexivity.
  - discriminate Hload.
  - exact Haccount.
  - vm_compute in Hfound. discriminate Hfound.
Defined.

(** X8 on the reference host, at the snapshot of the example. *)
Lemma buildNotification_counts_USD_witness :
  (forall x, free_of "U" (@FormatNumeric host amountFormat x) = true)
  /\ exists n, @buildNotification host (RefSnapshot underwater) = Normal n
               /\ occurrences "USD" (notification n) = 3%nat.
Proof.
  split; [exact compact_en_free|].
  exact (@buildNotification_counts_USD host underwater compact_en_free).
Defined.

End ReferenceHost.
